(** * firstWebApp: the greeting server of [src/firstWebApp/main.go]

    The program registers one handler on the pattern ["/"], and serves on
    [":8080"].  The handler writes a fixed greeting to the response writer and
    reports the outcome of that write on the standard output.

    The development has three layers:
    - [Fmt]: the formatted-printing calls the program makes ([Fprintf],
      [Printf], [Sprintf], [Println]) for formats without flags, width or
      precision;
    - [Http]: the response-writer interface, a connection that may break
      after a number of bytes, the buffered response writer the server
      hands to a handler, the pattern table and the accept loop;
    - [App]: the handler and [main] of main.go, written over the two. *)

From Stdlib Require Import ZArith List String Ascii Bool Lia.
From Stdlib Require Import DecimalString.
From Stdlib Require DecimalPos DecimalZ.
Import ListNotations.

Local Open Scope string_scope.
Local Open Scope Z_scope.

(** ** Values of the Go runtime the program touches *)

(** Go's [error] interface: the only method is [Error() string]. A nil error
    is [None] in [option error]. *)
Record error := { Error : string }.

(** Operands of a variadic printing call ([...interface{}]). *)
Inductive any :=
| AInt (n : Z)
| AString (s : string)
| AError (e : error).

(** Line feed, the byte [Println] appends. *)
Definition LF : string := String (ascii_of_nat 10) "".

(** Go's [len] on a string: its number of bytes. *)
Definition len (s : string) : Z := Z.of_nat (String.length s).

(** ** The process: what printing to the standard output changes *)

(** The two output streams of the process. Every printing call issues one
    write; a stream is the sequence of those writes, oldest first. *)
Record os := { stdout : list string; stderr : list string }.

Definition M (A : Type) : Type := os -> A * os.

Definition ret {A} (a : A) : M A := fun o => (a, o).

Definition bind {A B} (m : M A) (k : A -> M B) : M B :=
  fun o => let (a, o') := m o in k a o'.

Notation "x <- m ;; k" := (bind m (fun x => k))
  (at level 61, m at next level, right associativity).
Notation "m ;;; k" := (bind m (fun _ => k))
  (at level 61, right associativity).

Definition write_stdout (s : string) : M (Z * option error) :=
  fun o => ((len s, None), {| stdout := stdout o ++ [s]; stderr := stderr o |}).

(** The bytes on the standard output, as a reader of the stream sees them. *)
Definition contents (o : os) : string := String.concat "" (stdout o).

(** Go's [io.Writer]: [Write] takes the bytes and reports how many went out
    and the error that stopped it, if any. [http.ResponseWriter] is used by
    the program through this method only. *)
Class Writer (W : Type) := Write : W -> string -> W * (Z * option error).

Module Fmt.

Definition itoa (n : Z) : string := NilZero.string_of_int (Z.to_int n).

Definition type_name (a : any) : string :=
  match a with
  | AInt _ => "int"
  | AString _ => "string"
  | AError _ => "error"
  end.

(** The default format, the one of the verb [%v]: an error prints its
    [Error()] text. *)
Definition default_format (a : any) : string :=
  match a with
  | AInt n => itoa n
  | AString s => s
  | AError e => Error e
  end.

Definition bad_verb (c : ascii) (a : any) : string :=
  "%!" ++ String c ("(" ++ type_name a ++ "=" ++ default_format a ++ ")").

(** One operand under one verb. *)
Definition print_arg (c : ascii) (a : any) : string :=
  match c, a with
  | "v"%char, _ => default_format a
  | "d"%char, AInt n => itoa n
  | "s"%char, AString s => s
  | "s"%char, AError e => Error e
  | _, _ => bad_verb c a
  end.

Fixpoint extra (args : list any) : string :=
  match args with
  | [] => ""
  | [a] => type_name a ++ "=" ++ default_format a
  | a :: rest => type_name a ++ "=" ++ default_format a ++ ", " ++ extra rest
  end.

(** The formatting loop: literal bytes are copied, [%%] is a percent sign,
    a verb consumes the next operand; a verb with no operand left and a
    lone [%] at the end are reported in the output, as are operands left
    over. *)
Fixpoint doPrintf (format : string) (args : list any) : string :=
  match format with
  | EmptyString =>
      match args with
      | [] => ""
      | _ => "%!(EXTRA " ++ extra args ++ ")"
      end
  | String "%" EmptyString => "%!(NOVERB)"
  | String "%" (String "%" rest) => String "%" (doPrintf rest args)
  | String "%" (String c rest) =>
      match args with
      | [] => "%!" ++ String c ("(MISSING)" ++ doPrintf rest [])
      | a :: args' => print_arg c a ++ doPrintf rest args'
      end
  | String c rest => String c (doPrintf rest args)
  end.

(** [Println]'s formatting: default formats, a space between operands, a
    line feed at the end. *)
Fixpoint doPrintln (args : list any) : string :=
  match args with
  | [] => LF
  | [a] => default_format a ++ LF
  | a :: rest => default_format a ++ " " ++ doPrintln rest
  end.

Definition Sprintf (format : string) (args : list any) : string :=
  doPrintf format args.

(** [Fprintf] formats, then makes one [Write] call on [w] and returns what
    that call returned. *)
Definition Fprintf {W} `{Writer W} (w : W) (format : string) (args : list any)
  : W * (Z * option error) :=
  Write w (doPrintf format args).

Definition Printf (format : string) (args : list any) : M (Z * option error) :=
  write_stdout (doPrintf format args).

Definition Println (args : list any) : M (Z * option error) :=
  write_stdout (doPrintln args).

End Fmt.

Module Http.

(** What a handler can read of a request. *)
Record Request := {
  Method : string;
  URLPath : string;
  Header : list (string * string);
  Body : string
}.

(** The response stream of one connection: the bytes that reached the
    client, and, for a connection that is going to break, how many more
    bytes it still carries and the error the write then gets. Status line
    and headers are left out. *)
Record conn := {
  body : string;
  fault : option (nat * error)
}.

Definition conn_Write (c : conn) (p : string) : conn * (Z * option error) :=
  match fault c with
  | None => ({| body := body c ++ p; fault := None |}, (len p, None))
  | Some (k, e) =>
      if (String.length p <=? k)%nat
      then ({| body := body c ++ p; fault := Some ((k - String.length p)%nat, e) |},
            (len p, None))
      else ({| body := body c ++ substring 0 k p; fault := Some (0%nat, e) |},
            (Z.of_nat k, Some e))
  end.

#[export] Instance conn_Writer : Writer conn := conn_Write.

(** A writer that also keeps the payload of every [Write] call made on it,
    whatever the writer underneath does with it. *)
Record spy (W : Type) := { inner : W; calls : list string }.
Arguments inner {W} _.
Arguments calls {W} _.

Definition watch {W} (w : W) : spy W := {| inner := w; calls := [] |}.

#[export] Instance spy_Writer {W} `{Writer W} : Writer (spy W) :=
  fun s p =>
    let (w', res) := Write (inner s) p in
    ({| inner := w'; calls := calls s ++ [p] |}, res).

(** [func(ResponseWriter, *Request)]: a handler works with any response
    writer, and may print. *)
Definition HandlerFunc : Type :=
  forall (W : Type), Writer W -> W -> Request -> M W.

(** The pattern table, in registration order. *)
Definition ServeMux : Type := list (string * HandlerFunc).

(** The handler registered under a pattern, if any. *)
Fixpoint lookup (pattern : string) (mux : ServeMux) : option HandlerFunc :=
  match mux with
  | [] => None
  | (pattern', h) :: rest =>
      if String.eqb pattern pattern' then Some h else lookup pattern rest
  end.

(** The size of the buffer between a handler and its connection. *)
Definition bufferBeforeChunkingSize : nat := 2048.

(** The response writer the server hands to a handler: the request it
    answers, the connection underneath, the body bytes written but not yet
    passed down, and the error that stopped an earlier passing down. A
    handler that only calls [Write] leaves the status at 200, declares no
    length and does not take over the connection, so the checks on those
    are left out. *)
Record response := {
  req : Request;
  rwc : conn;
  pending : string;
  werr : option error
}.

Definition newResponse (r : Request) (c : conn) : response :=
  {| req := r; rwc := c; pending := ""; werr := None |}.

(** Passing body bytes down to the connection. Nothing is sent in answer to
    a HEAD request: the bytes are counted and dropped. The connection's own
    output buffer and the framing of chunks are not modelled: what is
    passed down goes on the stream at once, as it is. *)
Definition chunk_Write (w : response) (p : string)
    : response * (Z * option error) :=
  if String.eqb (Method (req w)) "HEAD" then (w, (len p, None))
  else
    let (c', res) := conn_Write (rwc w) p in
    ({| req := req w; rwc := c'; pending := pending w; werr := werr w |}, res).

(** [Write] on a response. A payload that fits in the free part of the
    buffer is kept there and reported written in full, whatever the state of
    the connection. One that does not fit is passed down, after the buffer
    has been filled and passed down if it held something; an error met
    there is returned and stays with the writer. *)
Definition response_Write (w : response) (p : string)
    : response * (Z * option error) :=
  if (String.length p =? 0)%nat then (w, (0, None))
  else
    match werr w with
    | Some e => (w, (0, Some e))
    | None =>
        let avail := (bufferBeforeChunkingSize - String.length (pending w))%nat in
        if (String.length p <=? avail)%nat then
          ({| req := req w; rwc := rwc w; pending := pending w ++ p;
              werr := None |}, (len p, None))
        else if (String.length (pending w) =? 0)%nat then
          let (w1, res) := chunk_Write w p in
          ({| req := req w1; rwc := rwc w1; pending := ""; werr := snd res |},
           res)
        else
          let rest := substring avail (String.length p - avail) p in
          let (w1, res1) := chunk_Write w (pending w ++ substring 0 avail p) in
          match snd res1 with
          | Some e =>
              ({| req := req w1; rwc := rwc w1;
                  pending := substring (Z.to_nat (fst res1))
                               (bufferBeforeChunkingSize - Z.to_nat (fst res1))
                               (pending w ++ substring 0 avail p);
                  werr := Some e |},
               (Z.of_nat avail, Some e))
          | None =>
              if (String.length rest <=? bufferBeforeChunkingSize)%nat then
                ({| req := req w1; rwc := rwc w1; pending := rest;
                    werr := None |}, (len p, None))
              else
                let (w2, res2) :=
                  chunk_Write {| req := req w1; rwc := rwc w1; pending := "";
                                 werr := None |} rest in
                ({| req := req w2; rwc := rwc w2; pending := "";
                    werr := snd res2 |},
                 (Z.of_nat avail + fst res2, snd res2))
          end
    end.

#[export] Instance response_Writer : Writer response := response_Write.

(** After the handler has returned the server passes down what is still in
    the buffer; an error met there is dropped. The result is the connection
    as the exchange leaves it. *)
Definition finishRequest (w : response) : conn :=
  match werr w with
  | Some _ => rwc w
  | None => rwc (fst (chunk_Write w (pending w)))
  end.

(** What the accept loop meets. A request on an accepted connection comes
    with the pattern the library's routing chose for it; requests the
    library answers by itself (a redirect to a cleaned path, a bad request)
    reach no code of the program and are not listed. An attempt to accept
    can fail, for a while or for good. A signal ends the process. The
    server runs each connection on its own; the events are listed in the
    order in which their handlers run. *)
Inductive event :=
| Accept (pattern : string) (r : Request) (c : conn)
| AcceptError (e : error) (temporary : bool)
| Signal.

Inductive phase :=
| Starting
| Serving
| Exited (status : Z)
| Killed.

(** The process: its phase, the package-level pattern table, the addresses
    it asked to listen on, the requests given to a handler, the connections
    as those exchanges left them, and its output streams. *)
Record process := {
  ph : phase;
  DefaultServeMux : ServeMux;
  listens : list string;
  handled : list Request;
  responses : list conn;
  out : os
}.

Definition start : process :=
  {| ph := Starting; DefaultServeMux := []; listens := []; handled := [];
     responses := []; out := {| stdout := []; stderr := [] |} |}.

(** [http.HandleFunc] adds the pattern and its handler to the package-level
    table. *)
Definition HandleFunc (pattern : string) (handler : HandlerFunc)
    (p : process) : process :=
  {| ph := ph p;
     DefaultServeMux := (DefaultServeMux p ++ [(pattern, handler)])%list;
     listens := listens p; handled := handled p;
     responses := responses p; out := out p |}.

(** The table a server consults for a request: its own, or the package-level
    one when it was given none ([nil]). *)
Definition serverHandler (srv : option ServeMux) (p : process) : ServeMux :=
  match srv with
  | Some m => m
  | None => DefaultServeMux p
  end.

(** A call that may block: the value it returned, or nothing so far. *)
Inductive call (A : Type) :=
| Returned (a : A)
| Blocked.
Arguments Returned {A} _.
Arguments Blocked {A}.

(** One exchange: the handler registered under the pattern is called on a
    new response writer, then the response is finished. *)
Definition serve (srv : option ServeMux) (p : process)
    (pattern : string) (r : Request) (c : conn) : process :=
  match lookup pattern (serverHandler srv p) with
  | Some h =>
      let (w', o') := h response response_Writer (newResponse r c) r (out p) in
      {| ph := ph p; DefaultServeMux := DefaultServeMux p;
         listens := listens p;
         handled := handled p ++ [r];
         responses := responses p ++ [finishRequest w'];
         out := o' |}
  | None => p
  end.

Definition kill (p : process) : process :=
  {| ph := Killed; DefaultServeMux := DefaultServeMux p;
     listens := listens p;
     handled := handled p; responses := responses p; out := out p |}.

(** The accept loop: a connection is served, a temporary error is waited
    out, any other error ends the loop and is returned. *)
Fixpoint Serve (srv : option ServeMux) (evs : list event) (p : process)
    : call error * process :=
  match evs with
  | [] => (Blocked, p)
  | Accept pattern r c :: rest => Serve srv rest (serve srv p pattern r c)
  | AcceptError _ true :: rest => Serve srv rest p
  | AcceptError e false :: _ => (Returned e, p)
  | Signal :: _ => (Blocked, kill p)
  end.

(** The surroundings of one run: command line, environment variables, what
    binding an address gives ([None]: bound), and what arrives afterwards. *)
Record world := {
  args : list string;
  environ : list (string * string);
  listen : string -> option error;
  incoming : list event
}.

(** [ListenAndServe] binds [addr] once. If that fails it returns the error;
    otherwise it runs the accept loop, and returns when that loop does. As
    long as the loop runs the call is [Blocked] and the process is as the
    events seen so far left it. *)
Definition ListenAndServe (addr : string) (handler : option ServeMux)
    (w : world) (p : process) : call error * process :=
  let p := {| ph := ph p; DefaultServeMux := DefaultServeMux p;
              listens := listens p ++ [addr];
              handled := handled p; responses := responses p; out := out p |} in
  match listen w addr with
  | Some e => (Returned e, p)
  | None =>
      Serve handler (incoming w)
        {| ph := Serving; DefaultServeMux := DefaultServeMux p;
           listens := listens p;
           handled := handled p; responses := responses p; out := out p |}
  end.

(** The function [main] returned: exit status 0. *)
Definition exit_main (p : process) : process :=
  {| ph := Exited 0; DefaultServeMux := DefaultServeMux p;
     listens := listens p;
     handled := handled p; responses := responses p; out := out p |}.

End Http.

Module App.
Import Http.

(** The response body of main.go, line 15. *)
Definition greeting : string := "Hello, world whatsup".

(** The function literal of main.go, lines 14-20. *)
Definition handler : HandlerFunc :=
  fun W _ w r =>
    let '(w, (n, err)) := Fmt.Fprintf w "Hello, world whatsup" [] in
    match err with
    | Some e => Fmt.Printf "error : %v" [AError e] ;;; ret tt
    | None => ret tt
    end ;;;
    Fmt.Println [AString (Fmt.Sprintf "Number of bytes written %d" [AInt n])] ;;;
    ret w.

(** [main], lines 9-24: the value [ListenAndServe] returns is dropped. *)
Definition main (w : world) : process :=
  let p := HandleFunc "/" handler start in
  match ListenAndServe ":8080" None w p with
  | (Returned _, p) => exit_main p
  | (Blocked, p) => p
  end.

End App.

Import Http App.

(** ** Sample inputs and the expected log texts *)

Definition GET (path : string) : Request :=
  {| Method := "GET"; URLPath := path; Header := []; Body := "" |}.

Definition POST (path : string) (payload : string) : Request :=
  {| Method := "POST"; URLPath := path;
     Header := [("Content-Type", "text/plain")]; Body := payload |}.

Definition HEAD (path : string) : Request :=
  {| Method := "HEAD"; URLPath := path; Header := []; Body := "" |}.

(** A connection in good order, nothing sent yet. *)
Definition fresh : conn := {| body := ""; fault := None |}.

(** A connection that breaks after [k] bytes with the error text [msg]. *)
Definition broken (k : nat) (msg : string) : conn :=
  {| body := ""; fault := Some (k, {| Error := msg |}) |}.

Definition quiet : os := {| stdout := []; stderr := [] |}.

Definition EADDRINUSE : error :=
  {| Error := "listen tcp :8080: bind: address already in use" |}.

Definition ENOMEM : error :=
  {| Error := "accept tcp [::]:8080: accept4: cannot allocate memory" |}.

Definition EMFILE : error :=
  {| Error := "accept tcp [::]:8080: accept4: too many open files" |}.

(** A run in which the address can be bound, and one in which it cannot. *)
Definition port_free (evs : list event) : world :=
  {| args := []; environ := []; listen := fun _ => None; incoming := evs |}.

Definition port_taken (evs : list event) : world :=
  {| args := ["-addr"; ":9090"]; environ := [("PORT", "9090")];
     listen := fun _ => Some EADDRINUSE; incoming := evs |}.

Definition error_message (e : error) : string := "error : " ++ Error e.

Definition count_line (n : Z) : string :=
  "Number of bytes written " ++ Fmt.itoa n ++ LF.

(** What one handler call prints, given what its write returned. *)
Definition report (res : Z * option error) : list string :=
  match snd res with
  | Some e => [error_message e; count_line (fst res)]
  | None => [count_line (fst res)]
  end.

(** The writes a computation added to the standard output. *)
Definition emitted (before after : os) : list string :=
  skipn (List.length (stdout before)) (stdout after).

Fixpoint ends_with_LF (s : string) : bool :=
  match s with
  | EmptyString => false
  | String c EmptyString => Ascii.eqb c (ascii_of_nat 10)
  | String _ rest => ends_with_LF rest
  end.

(** An event after which the accept loop goes on. *)
Definition keeps_serving (ev : event) : bool :=
  match ev with
  | Accept _ _ _ => true
  | AcceptError _ temporary => temporary
  | Signal => false
  end.

(** The request of an event, when it is one for the root pattern. *)
Definition root_request_of (ev : event) : list Request :=
  match ev with
  | Accept pattern r _ => if String.eqb pattern "/" then [r] else []
  | _ => []
  end.

Definition w_taken : world :=
  port_taken [Accept "/" (GET "/") fresh; Accept "/" (GET "/again") fresh].

Definition w_three : world :=
  port_free [Accept "/" (GET "/") fresh;
             AcceptError EMFILE true;
             Accept "/" (POST "/x" "y") (broken 3 "EOF");
             Accept "/" (HEAD "/") fresh].

(** A run whose accept loop fails for good after one exchange. *)
Definition w_accept_fails : world :=
  port_free [Accept "/" (GET "/") fresh;
             AcceptError ENOMEM false;
             Accept "/" (GET "/late") fresh].

(** The pattern table [main] sets up. *)
Definition registered : ServeMux := [("/", handler)].

(** The requests given to the handler of [main] until the accept loop
    ends, and the phase the run is then in. *)
Fixpoint served (evs : list event) : list Request :=
  match evs with
  | [] => []
  | Accept pattern r _ :: rest =>
      if String.eqb pattern "/" then r :: served rest else served rest
  | AcceptError _ true :: rest => served rest
  | AcceptError _ false :: _ => []
  | Signal :: _ => []
  end.

Fixpoint ending (evs : list event) : phase :=
  match evs with
  | [] => Serving
  | Accept _ _ _ :: rest => ending rest
  | AcceptError _ true :: rest => ending rest
  | AcceptError _ false :: _ => Exited 0
  | Signal :: _ => Killed
  end.

(** A format with no verb and no percent sign in it. *)
Fixpoint no_percent (s : string) : bool :=
  match s with
  | EmptyString => true
  | String c rest => negb (Ascii.eqb c "%") && no_percent rest
  end.

(** What [main] makes of the accept loop: it exits when the loop returns. *)
Definition after_Serve (res : call error * process) : process :=
  match res with
  | (Returned _, q) => exit_main q
  | (Blocked, q) => q
  end.

(** ** Basic facts *)

Lemma append_empty_r (s : string) : s ++ "" = s.
Proof. induction s as [|c s IH]; simpl; [reflexivity | now rewrite IH]. Qed.

Lemma emitted_app (o : os) (new : list string) (e : list string) :
  emitted o {| stdout := stdout o ++ new; stderr := e |} = new.
Proof.
  unfold emitted; simpl.
  rewrite skipn_app, skipn_all, Nat.sub_diag; reflexivity.
Qed.

(** The handler, unfolded once and for all: one [Write] of the greeting, then
    the report of what that [Write] returned. *)
Lemma handler_run W (wr : Writer W) (w : W) (r : Request) (o : os) :
  handler W wr w r o =
    (fst (Write w greeting),
     {| stdout := stdout o ++ report (snd (Write w greeting));
        stderr := stderr o |}).
Proof.
  unfold handler, Fmt.Fprintf, greeting, report; simpl.
  destruct (Write w "Hello, world whatsup") as [w' [n [e|]]]; simpl;
    unfold bind, Fmt.Printf, Fmt.Println, write_stdout, ret; simpl;
    unfold error_message, count_line; rewrite ?append_empty_r.
  - rewrite <- app_assoc; reflexivity.
  - reflexivity.
Qed.

Lemma conn_Write_success (c : conn) (p : string) :
  snd (snd (Write c p)) = None ->
  Write c p = ({| body := body c ++ p;
                  fault := match fault c with
                           | None => None
                           | Some (k, e) => Some ((k - String.length p)%nat, e)
                           end |}, (len p, None)).
Proof.
  unfold Write, conn_Writer, conn_Write.
  destruct (fault c) as [[k e]|]; [|reflexivity].
  destruct (String.length p <=? k)%nat; simpl; [reflexivity | discriminate].
Qed.

(** The greeting fits in the buffer of a new response: the write is
    reported complete whatever the request and the connection are. *)
Lemma response_Write_greeting (r : Request) (c : conn) :
  Write (newResponse r c) greeting
  = ({| req := r; rwc := c; pending := greeting; werr := None |}, (20, None)).
Proof. reflexivity. Qed.

Lemma lookup_registered (pattern : string) :
  lookup pattern registered
  = if String.eqb pattern "/" then Some handler else None.
Proof. reflexivity. Qed.

(** One exchange under the table of [main]. *)
Lemma serve_registered (p : process) (pattern : string) (r : Request) (c : conn) :
  DefaultServeMux p = registered ->
  serve None p pattern r c =
    if String.eqb pattern "/" then
      {| ph := ph p; DefaultServeMux := DefaultServeMux p;
         listens := listens p;
         handled := handled p ++ [r];
         responses := responses p
           ++ [finishRequest {| req := r; rwc := c; pending := greeting;
                                werr := None |}];
         out := {| stdout := stdout (out p) ++ [count_line 20];
                   stderr := stderr (out p) |} |}
    else p.
Proof.
  intro Hm. unfold serve, serverHandler. rewrite Hm, lookup_registered.
  destruct (String.eqb pattern "/"); [|reflexivity].
  rewrite handler_run, response_Write_greeting. reflexivity.
Qed.

(** The accept loop under the table of [main]: what it leaves of the
    process. *)
Lemma Serve_registered (evs : list event) :
  forall p, DefaultServeMux p = registered ->
    DefaultServeMux (snd (Serve None evs p)) = registered /\
    listens (snd (Serve None evs p)) = listens p /\
    handled (snd (Serve None evs p)) = (handled p ++ served evs)%list /\
    stdout (out (snd (Serve None evs p)))
    = (stdout (out p) ++ map (fun _ => count_line 20) (served evs))%list /\
    stderr (out (snd (Serve None evs p))) = stderr (out p).
Proof.
  induction evs as [|[pattern r c|e [|]|] evs IH]; intros p Hm; simpl.
  - rewrite !app_nil_r. repeat split; auto.
  - rewrite (serve_registered p pattern r c Hm).
    destruct (String.eqb pattern "/").
    + match goal with |- context [Serve None evs ?q] =>
        destruct (IH q Hm) as (M & L & H & O & E) end.
      simpl in L, H, O, E. rewrite M, L, H, O, E. simpl.
      rewrite <- !app_assoc. repeat split; auto.
    + destruct (IH p Hm) as (M & L & H & O & E). repeat split; auto.
  - destruct (IH p Hm) as (M & L & H & O & E). repeat split; auto.
  - rewrite !app_nil_r. repeat split; auto.
  - rewrite !app_nil_r. repeat split; auto.
Qed.

Lemma serve_ph srv (p : process) (pattern : string) (r : Request) (c : conn) :
  ph (serve srv p pattern r c) = ph p.
Proof.
  unfold serve. destruct (lookup pattern (serverHandler srv p)) as [h|];
    [|reflexivity].
  destruct (h response response_Writer (newResponse r c) r (out p)); reflexivity.
Qed.

Lemma Serve_phase srv (evs : list event) :
  forall p, ph p = Serving -> ph (after_Serve (Serve srv evs p)) = ending evs.
Proof.
  induction evs as [|[pattern r c|e [|]|] evs IH]; intros p Hp; simpl; auto.
  apply IH. now rewrite serve_ph.
Qed.

Lemma after_Serve_fields (res : call error * process) :
  DefaultServeMux (after_Serve res) = DefaultServeMux (snd res) /\
  listens (after_Serve res) = listens (snd res) /\
  handled (after_Serve res) = handled (snd res) /\
  responses (after_Serve res) = responses (snd res) /\
  out (after_Serve res) = out (snd res).
Proof. destruct res as [[e|] q]; simpl; auto. Qed.

(** [main] in a run whose bind succeeds. *)
Lemma main_bound (w : world) :
  listen w ":8080" = None ->
  main w = after_Serve
             (Serve None (incoming w)
                {| ph := Serving; DefaultServeMux := registered;
                   listens := [":8080"]; handled := []; responses := [];
                   out := quiet |}).
Proof.
  intro Hb. unfold main, ListenAndServe; simpl. rewrite Hb.
  unfold after_Serve. reflexivity.
Qed.

Lemma main_unbound (w : world) (e : error) :
  listen w ":8080" = Some e ->
  main w = {| ph := Exited 0; DefaultServeMux := registered;
              listens := [":8080"]; handled := []; responses := [];
              out := quiet |}.
Proof.
  intro Hb. unfold main, ListenAndServe; simpl. rewrite Hb. reflexivity.
Qed.

(** Every run: the table, the address, and one byte-count line for 20 bytes
    per request given to the handler. *)
Lemma main_run (w : world) :
  DefaultServeMux (main w) = registered /\
  listens (main w) = [":8080"] /\
  stdout (out (main w)) = map (fun _ => count_line 20) (handled (main w)) /\
  (listen w ":8080" = None ->
   ph (main w) = ending (incoming w) /\
   handled (main w) = served (incoming w)).
Proof.
  destruct (listen w ":8080") as [e|] eqn:Hb.
  - rewrite (main_unbound w e Hb). simpl. repeat split; discriminate.
  - rewrite (main_bound w Hb).
    match goal with |- context [Serve None _ ?q] =>
      destruct (Serve_registered (incoming w) q eq_refl) as (M & L & H & O & _);
      pose proof (Serve_phase None (incoming w) q eq_refl) as F;
      destruct (after_Serve_fields (Serve None (incoming w) q))
        as (M' & L' & H' & _ & O')
    end.
    rewrite M', L', H', O', M, L, H, O. simpl. repeat split; auto.
Qed.

Lemma keeps_serving_run (evs : list event) :
  forallb keeps_serving evs = true ->
  ending evs = Serving /\ served evs = flat_map root_request_of evs.
Proof.
  induction evs as [|[pattern r c|e [|]|] evs IH]; simpl; intro H;
    try discriminate; auto.
  destruct (IH H) as [E S]. rewrite S.
  destruct (String.eqb pattern "/"); auto.
Qed.

Lemma accept_error_ends (evs rest : list event) (e : error) :
  forallb keeps_serving evs = true ->
  ending (evs ++ AcceptError e false :: rest) = Exited 0 /\
  served (evs ++ AcceptError e false :: rest) = flat_map root_request_of evs.
Proof.
  induction evs as [|[pattern r c|e' [|]|] evs IH]; simpl; intro H;
    try discriminate; auto.
  destruct (IH H) as [E S]. rewrite S.
  destruct (String.eqb pattern "/"); auto.
Qed.

Lemma ending_Exited (evs : list event) (status : Z) :
  ending evs = Exited status ->
  status = 0 /\ exists e, In (AcceptError e false) evs.
Proof.
  induction evs as [|[pattern r c|e [|]|] evs IH]; simpl; intro H;
    try discriminate.
  - destruct (IH H) as [S [e' Hin]]. split; [exact S|]. exists e'. now right.
  - destruct (IH H) as [S [e' Hin]]. split; [exact S|]. exists e'. now right.
  - injection H as <-. split; [reflexivity|]. exists e. now left.
Qed.

Lemma append_cancel_l (a x y : string) : a ++ x = a ++ y -> x = y.
Proof.
  induction a as [|c a IH]; simpl; intro H; [exact H|].
  injection H as H. now apply IH.
Qed.

Lemma error_message_inj (e e' : error) :
  error_message e = error_message e' -> e = e'.
Proof.
  unfold error_message. intro H. apply append_cancel_l in H.
  destruct e, e'. simpl in H. now subst.
Qed.

Lemma count_line_is_not_error_message (n : Z) (e : error) :
  count_line n <> error_message e.
Proof. unfold count_line, error_message. simpl. discriminate. Qed.

(** ** The handler *)

(** C1. Whatever the request is (method, path, headers, body), the handler
    writes exactly the literal ["Hello, world whatsup"] to the response
    stream: on any response writer it makes one [Write] call, with that
    payload, and leaves the writer as that call left it. In every run this
    handler is the one registered under the root pattern. *)
Theorem handler_writes_greeting
    (wd : world) W (wr : Writer W) (w : W) (r : Request) (o : os) :
  lookup "/" (DefaultServeMux (main wd)) = Some handler /\
  calls (fst (handler (spy W) (@spy_Writer W wr) (watch w) r o))
  = ["Hello, world whatsup"] /\
  inner (fst (handler (spy W) (@spy_Writer W wr) (watch w) r o))
  = fst (Write w "Hello, world whatsup") /\
  fst (handler W wr w r o) = fst (Write w "Hello, world whatsup").
Proof.
  destruct (main_run wd) as (M & _). rewrite M, !handler_run.
  cbn [fst]. unfold Write at 1 2, spy_Writer. cbn [inner calls watch].
  fold greeting. destruct (Write w greeting). repeat split.
Qed.

(** C2, as stated, fails: on a write that succeeds the logged count is 20,
    not 21, because the literal has 20 bytes. *)
Lemma logged_count_is_not_21 :
  snd (snd (Write fresh greeting)) = None /\
  emitted quiet (snd (handler conn conn_Writer fresh (GET "/") quiet))
  = [count_line 20] /\
  count_line 20 <> count_line 21 /\
  len greeting <> 21.
Proof.
  repeat split; try reflexivity; vm_compute; discriminate.
Qed.

(** C2, amended. On every response write that succeeds on a connection, the
    one line the handler prints carries the byte length of the literal
    ["Hello, world whatsup"], and that length is 20. *)
Theorem successful_write_logs_length (r : Request) (c : conn) (o : os) :
  snd (snd (Write c greeting)) = None ->
  emitted o (snd (handler conn conn_Writer c r o))
  = [count_line (len greeting)] /\
  count_line (len greeting) = "Number of bytes written 20" ++ LF /\
  len greeting = 20.
Proof.
  intro Hok. split; [|split; reflexivity].
  rewrite handler_run. simpl. rewrite emitted_app.
  rewrite (conn_Write_success c greeting Hok). reflexivity.
Qed.

Lemma successful_write_logs_length_witness :
  snd (snd (Write fresh greeting)) = None /\
  emitted quiet (snd (handler conn conn_Writer fresh (GET "/") quiet))
  = [count_line (len greeting)] /\
  count_line (len greeting) = "Number of bytes written 20" ++ LF /\
  len greeting = 20.
Proof.
  split; [reflexivity|].
  apply (successful_write_logs_length (GET "/") fresh quiet). reflexivity.
Defined.

(** C3. In every call the server makes of the handler, whatever the request
    and the state of the connection, the response write succeeds with 20
    bytes, since the literal fits in the buffer of the new response writer.
    So the line ["Number of bytes written <n>"] is printed exactly when the
    write succeeds, and the message ["error : <details>"] exactly when it
    fails: the first always, the second never. That the error message is
    printed exactly when the write fails holds on any writer at all. *)
Theorem server_call_log_lines
    (r : Request) (c : conn) (o : os)
    W (wr : Writer W) (w : W) (r' : Request) (o' : os) :
  snd (Write (newResponse r c) greeting) = (20, None) /\
  emitted o (snd (handler response response_Writer (newResponse r c) r o))
  = [count_line 20] /\
  ((exists n,
       In (count_line n)
          (emitted o (snd (handler response response_Writer
                             (newResponse r c) r o))))
   <-> snd (snd (Write (newResponse r c) greeting)) = None) /\
  (forall e,
      In (error_message e)
         (emitted o (snd (handler response response_Writer
                            (newResponse r c) r o)))
      <-> snd (snd (Write (newResponse r c) greeting)) = Some e) /\
  (forall e,
      In (error_message e) (emitted o' (snd (handler W wr w r' o')))
      <-> snd (snd (Write w greeting)) = Some e).
Proof.
  rewrite !handler_run, response_Write_greeting. cbn [fst snd].
  rewrite !emitted_app. unfold report. cbn [fst snd].
  split; [reflexivity|]. split; [reflexivity|]. split; [|split].
  - split; [reflexivity|]. intros _. exists 20. now left.
  - intro e. split; [|discriminate].
    intros [H|[]]. now apply count_line_is_not_error_message in H.
  - intro e. destruct (snd (snd (Write w greeting))) as [e'|]; split.
    + intros [H|[H|[]]].
      * apply error_message_inj in H. now subst.
      * now apply count_line_is_not_error_message in H.
    + intros [= ->]. now left.
    + intros [H|[]]. now apply count_line_is_not_error_message in H.
    + discriminate.
Qed.

(** C9. The handler does not look at the request: on the same response
    writer, two calls with any two requests leave the same response and print
    the same. *)
Theorem handler_ignores_request W (wr : Writer W) (w : W)
    (r1 r2 : Request) (o : os) :
  handler W wr w r1 o = handler W wr w r2 o.
Proof. rewrite !handler_run. reflexivity. Qed.

Lemma firstn_length_app {A} (l new : list A) :
  firstn (List.length l) (l ++ new) = l.
Proof. rewrite firstn_app, firstn_all, Nat.sub_diag. simpl. apply app_nil_r. Qed.

Lemma skipn_length_app {A} (l new : list A) :
  skipn (List.length l) (l ++ new) = new.
Proof. rewrite skipn_app, skipn_all, Nat.sub_diag. reflexivity. Qed.

(** C4. A response write that fails in one handler call stays within that
    call. The call prints the error and the count and returns to its caller;
    of the state calls share it only appends to the standard output, leaving
    what was printed before and the standard error as they were; and a later
    call, on its own response writer, leaves the same response and prints
    the same as if the failed call had not taken place, after one [Write] of
    the whole literal. *)
Theorem write_failure_is_contained
    W1 (wr1 : Writer W1) (w1 : W1) (r1 : Request)
    W2 (wr2 : Writer W2) (w2 : W2) (r2 : Request) (o : os) (e : error) :
  snd (snd (Write w1 greeting)) = Some e ->
  emitted o (snd (handler W1 wr1 w1 r1 o))
  = [error_message e; count_line (fst (snd (Write w1 greeting)))] /\
  firstn (List.length (stdout o)) (stdout (snd (handler W1 wr1 w1 r1 o)))
  = stdout o /\
  stderr (snd (handler W1 wr1 w1 r1 o)) = stderr o /\
  fst (handler W2 wr2 w2 r2 (snd (handler W1 wr1 w1 r1 o)))
  = fst (handler W2 wr2 w2 r2 o) /\
  emitted (snd (handler W1 wr1 w1 r1 o))
          (snd (handler W2 wr2 w2 r2 (snd (handler W1 wr1 w1 r1 o))))
  = emitted o (snd (handler W2 wr2 w2 r2 o)) /\
  calls (fst (handler (spy W2) (@spy_Writer W2 wr2) (watch w2) r2
                (snd (handler W1 wr1 w1 r1 o))))
  = ["Hello, world whatsup"].
Proof.
  intro Hfail. rewrite !handler_run. cbn [fst snd stdout stderr].
  rewrite !emitted_app, firstn_length_app.
  unfold emitted. cbn [stdout]. rewrite ?skipn_length_app.
  unfold report at 1. rewrite Hfail.
  repeat split.
  unfold Write at 1, spy_Writer. cbn [inner calls watch].
  destruct (Write w2 greeting). reflexivity.
Qed.

Lemma write_failure_is_contained_witness :
  snd (snd (Write (broken 5 "broken pipe") greeting))
  = Some {| Error := "broken pipe" |} /\
  emitted quiet
    (snd (handler conn conn_Writer (broken 5 "broken pipe")
            (POST "/submit" "data") quiet))
  = ["error : broken pipe"; count_line 5] /\
  fst (handler conn conn_Writer fresh (GET "/")
         (snd (handler conn conn_Writer (broken 5 "broken pipe")
                 (POST "/submit" "data") quiet)))
  = {| body := "Hello, world whatsup"; fault := None |}.
Proof.
  pose proof (write_failure_is_contained
                conn conn_Writer (broken 5 "broken pipe") (POST "/submit" "data")
                conn conn_Writer fresh (GET "/") quiet
                {| Error := "broken pipe" |} eq_refl) as H.
  split; [reflexivity|].
  destruct H as (Hlog & _ & _ & Hsame & _ & _).
  split; [exact Hlog|].
  rewrite Hsame. reflexivity.
Defined.

Lemma ends_with_LF_app (a b : string) :
  ends_with_LF b = true -> ends_with_LF (a ++ b) = true.
Proof.
  intro Hb. induction a as [|x a IH]; [exact Hb|].
  simpl. destruct (a ++ b) eqn:Hab; [|exact IH].
  simpl in IH. discriminate.
Qed.

Lemma count_line_ends_with_LF (n : Z) : ends_with_LF (count_line n) = true.
Proof.
  unfold count_line. apply ends_with_LF_app, ends_with_LF_app. reflexivity.
Qed.

(** C7. Every message a run of the program prints is on the standard output
    and is a line ended by a line feed: it is the byte-count line for 20
    bytes, one for each request given to the handler. On a response write
    that fails, on whatever writer, the message the handler prints first has
    the form ["error : <err>"]; otherwise it prints the byte-count line
    alone. *)
Theorem every_message_is_a_line
    (wd : world) W (wr : Writer W) (w : W) (r : Request) (o : os) :
  Forall (fun m => ends_with_LF m = true) (stdout (out (main wd))) /\
  stdout (out (main wd))
  = map (fun _ => "Number of bytes written 20" ++ LF) (handled (main wd)) /\
  match snd (snd (Write w greeting)) with
  | Some e =>
      hd "" (emitted o (snd (handler W wr w r o))) = "error : " ++ Error e
  | None =>
      emitted o (snd (handler W wr w r o))
      = [count_line (fst (snd (Write w greeting)))]
  end.
Proof.
  destruct (main_run wd) as (_ & _ & O & _).
  split; [|split].
  - rewrite O. apply Forall_map, Forall_forall. intros x _.
    apply count_line_ends_with_LF.
  - exact O.
  - rewrite handler_run. cbn [snd]. rewrite emitted_app. unfold report.
    destruct (snd (snd (Write w greeting))); reflexivity.
Qed.

(** ** The whole program *)

(** C8. In every run the program asks to listen exactly once, on [":8080"]:
    command line, environment variables and everything else in its
    surroundings have no part in the address. *)
Theorem listen_address_is_fixed (w : world) : listens (main w) = [":8080"].
Proof. exact (proj1 (proj2 (main_run w))). Qed.

(** C5. When binding the listening address fails, the process ends: the
    bind was tried once and not again, and no request was given to a handler,
    whatever was waiting to arrive. *)
Theorem bind_failure_serves_nothing (w : world) (e : error) :
  listen w ":8080" = Some e ->
  (exists status, ph (main w) = Exited status) /\
  listens (main w) = [":8080"] /\
  handled (main w) = [] /\
  responses (main w) = [].
Proof.
  intro Hb. rewrite (main_unbound w e Hb). simpl.
  repeat split. now exists 0.
Qed.

Lemma bind_failure_serves_nothing_witness :
  listen w_taken ":8080" = Some EADDRINUSE /\
  (exists status, ph (main w_taken) = Exited status) /\
  listens (main w_taken) = [":8080"] /\
  handled (main w_taken) = [] /\
  responses (main w_taken) = [].
Proof.
  split; [reflexivity|].
  exact (bind_failure_serves_nothing w_taken EADDRINUSE eq_refl).
Defined.

(** C6. The error [ListenAndServe] returns is dropped: when the bind fails,
    [main] returns, so the process ends with exit status 0 and has printed
    nothing, neither on the standard output nor on the standard error. *)
Theorem bind_failure_exits_silently (w : world) (e : error) :
  listen w ":8080" = Some e ->
  ph (main w) = Exited 0 /\
  stdout (out (main w)) = [] /\
  stderr (out (main w)) = [].
Proof.
  intro Hb. rewrite (main_unbound w e Hb). simpl. auto.
Qed.

Lemma bind_failure_exits_silently_witness :
  listen w_taken ":8080" = Some EADDRINUSE /\
  ph (main w_taken) = Exited 0 /\
  stdout (out (main w_taken)) = [] /\
  stderr (out (main w_taken)) = [].
Proof.
  split; [reflexivity|].
  exact (bind_failure_exits_silently w_taken EADDRINUSE eq_refl).
Defined.

(** C10, as stated, fails: the bind succeeds and a request is served, then
    an attempt to accept fails for good; the accept loop returns, [main]
    returns, and the process has exited with status 0. *)
Lemma serving_ends_on_accept_error :
  listen w_accept_fails ":8080" = None /\
  handled (main w_accept_fails) = [GET "/"] /\
  stdout (out (main w_accept_fails)) = [count_line 20] /\
  ph (main w_accept_fails) = Exited 0.
Proof. repeat split. Qed.

(** C10, amended. When the bind succeeds the program stays in the serving
    phase for as long as accepting gives connections or errors that pass:
    however many requests arrive, each one routed to the root pattern is
    given to the handler and gets its byte-count line. The program leaves
    that phase by itself in one case only: an attempt to accept fails for
    good; then the accept loop returns, [main] returns and the process exits
    with status 0, and what would have arrived later is not served. *)
Theorem serving_ends_only_on_accept_error (w : world) :
  listen w ":8080" = None ->
  (forallb keeps_serving (incoming w) = true ->
   ph (main w) = Serving /\
   handled (main w) = flat_map root_request_of (incoming w) /\
   stdout (out (main w)) = map (fun _ => count_line 20) (handled (main w))) /\
  (forall status, ph (main w) = Exited status ->
     status = 0 /\ exists e, In (AcceptError e false) (incoming w)) /\
  (forall evs e rest,
     incoming w = (evs ++ AcceptError e false :: rest)%list ->
     forallb keeps_serving evs = true ->
     ph (main w) = Exited 0 /\
     handled (main w) = flat_map root_request_of evs).
Proof.
  intro Hb. destruct (main_run w) as (_ & _ & O & F).
  destruct (F Hb) as [P H]. split; [|split].
  - intro Hall. destruct (keeps_serving_run (incoming w) Hall) as [E S].
    rewrite P, H, E, S. repeat split. rewrite O, H, S. reflexivity.
  - intros status Hs. rewrite P in Hs. now apply ending_Exited.
  - intros evs e rest Hin Hall.
    destruct (accept_error_ends evs rest e Hall) as [E S].
    rewrite P, H, Hin, E, S. auto.
Qed.

Lemma serving_ends_only_on_accept_error_witness :
  (listen w_three ":8080" = None /\
   forallb keeps_serving (incoming w_three) = true) /\
  ph (main w_three) = Serving /\
  handled (main w_three) = [GET "/"; POST "/x" "y"; HEAD "/"] /\
  stdout (out (main w_three))
  = map (fun _ => count_line 20) (handled (main w_three)).
Proof.
  split; [split; reflexivity|].
  exact (proj1 (serving_ends_only_on_accept_error w_three eq_refl) eq_refl).
Defined.

(** ** Further properties of the handler *)

Lemma length_append (a b : string) :
  String.length (a ++ b) = (String.length a + String.length b)%nat.
Proof. induction a as [|c a IH]; simpl; [reflexivity | now rewrite IH]. Qed.

Lemma append_assoc (a b c : string) : (a ++ b) ++ c = a ++ (b ++ c).
Proof. induction a as [|x a IH]; simpl; [reflexivity | now rewrite IH]. Qed.

Lemma concat_cons (a : string) (l : list string) :
  String.concat "" (a :: l) = a ++ String.concat "" l.
Proof. destruct l; simpl; [now rewrite append_empty_r | reflexivity]. Qed.

Lemma concat_app (l l' : list string) :
  String.concat "" (l ++ l') = String.concat "" l ++ String.concat "" l'.
Proof.
  induction l as [|a l IH]; [reflexivity|].
  rewrite <- app_comm_cons, !concat_cons, IH, append_assoc. reflexivity.
Qed.

Lemma last_report (l : list string) (res : Z * option error) :
  last (l ++ report res) "" = count_line (fst res).
Proof.
  unfold report. destruct (snd res) as [e|].
  - change [error_message e; count_line (fst res)]
      with ([error_message e] ++ [count_line (fst res)])%list.
    rewrite app_assoc. apply last_last.
  - apply last_last.
Qed.

(** X6. After every handler call, on any response writer and whatever the
    outcome of the write, the standard output ends with a line feed: the
    byte-count line is the last thing printed and closes the line, also the
    one an error message opened. *)
Theorem stdout_ends_line_after_handler
    W (wr : Writer W) (w : W) (r : Request) (o : os) :
  ends_with_LF (contents (snd (handler W wr w r o))) = true.
Proof.
  rewrite handler_run. unfold contents. cbn [snd stdout].
  rewrite concat_app. apply ends_with_LF_app.
  unfold report. destruct (snd (snd (Write w greeting))) as [e|].
  - rewrite concat_cons. apply ends_with_LF_app. simpl.
    apply count_line_ends_with_LF.
  - simpl. apply count_line_ends_with_LF.
Qed.

Lemma doPrintf_plain (c : ascii) (rest : string) (args : list any) :
  Ascii.eqb c "%" = false ->
  Fmt.doPrintf (String c rest) args = String c (Fmt.doPrintf rest args).
Proof.
  destruct c as [[] [] [] [] [] [] [] []]; intro H;
    try reflexivity; discriminate H.
Qed.

Lemma doPrintf_no_percent (s : string) :
  no_percent s = true -> Fmt.doPrintf s [] = s.
Proof.
  induction s as [|c s IH]; simpl no_percent; intro H; [reflexivity|].
  apply andb_true_iff in H. destruct H as [Hc Hs].
  apply negb_true_iff in Hc.
  rewrite (doPrintf_plain c s [] Hc), (IH Hs). reflexivity.
Qed.

(** X7. A format that holds no percent sign, printed with no operands, goes
    out byte for byte: [Fprintf] hands exactly the format to the writer and
    [Sprintf] returns it. The response body is the literal of line 15 for
    this reason. *)
Theorem percent_free_format_is_verbatim
    W (wr : Writer W) (w : W) (format : string) :
  no_percent format = true ->
  Fmt.Fprintf w format [] = Write w format /\
  Fmt.Sprintf format [] = format.
Proof.
  intro H. unfold Fmt.Fprintf, Fmt.Sprintf.
  rewrite (doPrintf_no_percent format H). auto.
Qed.

Lemma percent_free_format_is_verbatim_witness :
  no_percent "Hello, world whatsup" = true /\
  Fmt.Fprintf fresh "Hello, world whatsup" [] = Write fresh "Hello, world whatsup" /\
  Fmt.Sprintf "Hello, world whatsup" [] = "Hello, world whatsup".
Proof.
  split; [reflexivity|].
  exact (percent_free_format_is_verbatim conn conn_Writer fresh
           "Hello, world whatsup" eq_refl).
Defined.

Lemma append_cancel_r (c : string) :
  forall a b, a ++ c = b ++ c -> a = b.
Proof.
  induction a as [|x a IH]; intros [|y b] H; simpl in H.
  - reflexivity.
  - apply (f_equal String.length) in H. simpl in H.
    rewrite length_append in H. lia.
  - apply (f_equal String.length) in H. simpl in H.
    rewrite length_append in H. lia.
  - injection H as -> H. f_equal. now apply IH.
Qed.

Lemma to_int_proper (n : Z) :
  Z.to_int n <> Decimal.Pos Decimal.Nil /\ Z.to_int n <> Decimal.Neg Decimal.Nil.
Proof.
  destruct n as [|p|p]; simpl; split; try discriminate;
    intros [= H]; exact (DecimalPos.Unsigned.to_uint_nonnil p H).
Qed.

Lemma itoa_inj (n m : Z) : Fmt.itoa n = Fmt.itoa m -> n = m.
Proof.
  unfold Fmt.itoa. intro H.
  apply DecimalZ.to_int_inj.
  destruct (to_int_proper n) as [Hn1 Hn2], (to_int_proper m) as [Hm1 Hm2].
  pose proof (NilZero.isi (Z.to_int n) Hn1 Hn2) as En.
  pose proof (NilZero.isi (Z.to_int m) Hm1 Hm2) as Em.
  rewrite H in En. rewrite En in Em. now injection Em.
Qed.

(** X8. The last line a handler call prints tells the count its write
    returned: if two calls, on any writers, with any requests and after any
    earlier output, end their output with the same line, then their two
    writes returned the same number of bytes. *)
Theorem count_line_determines_count
    W1 (wr1 : Writer W1) (w1 : W1) (r1 : Request) (o1 : os)
    W2 (wr2 : Writer W2) (w2 : W2) (r2 : Request) (o2 : os) :
  last (stdout (snd (handler W1 wr1 w1 r1 o1))) ""
  = last (stdout (snd (handler W2 wr2 w2 r2 o2))) "" ->
  fst (snd (Write w1 greeting)) = fst (snd (Write w2 greeting)).
Proof.
  rewrite !handler_run. cbn [snd stdout]. rewrite !last_report.
  unfold count_line. intro H.
  apply append_cancel_l in H. apply append_cancel_r in H.
  now apply itoa_inj.
Qed.

Lemma count_line_determines_count_witness :
  last (stdout (snd (handler conn conn_Writer fresh (GET "/") quiet))) ""
  = last (stdout (snd (handler response response_Writer
                         (newResponse (HEAD "/x") (broken 0 "EOF"))
                         (HEAD "/x")
                         {| stdout := ["earlier" ++ LF]; stderr := [] |}))) "" /\
  fst (snd (Write fresh greeting))
  = fst (snd (Write (newResponse (HEAD "/x") (broken 0 "EOF")) greeting)).
Proof.
  split; [reflexivity|].
  exact (count_line_determines_count
           conn conn_Writer fresh (GET "/") quiet
           response response_Writer (newResponse (HEAD "/x") (broken 0 "EOF"))
           (HEAD "/x") {| stdout := ["earlier" ++ LF]; stderr := [] |} eq_refl).
Defined.

(** X10. What a handler call prints, on any response writer: the message
    ["error : <details>"] exactly when the write returned an error, and then,
    in every case, the line ["Number of bytes written <n>"] with the count
    the write returned. Nothing else is printed. *)
Theorem handler_log_lines W (wr : Writer W) (w : W) (r : Request) (o : os) :
  emitted o (snd (handler W wr w r o)) =
    match snd (snd (Write w greeting)) with
    | Some e => [error_message e; count_line (fst (snd (Write w greeting)))]
    | None => [count_line (fst (snd (Write w greeting)))]
    end.
Proof.
  rewrite handler_run. simpl. rewrite emitted_app. reflexivity.
Qed.

(** X11. On a writer whose write fails, the error message is printed with
    no line feed after it, so on the standard output the byte-count message
    follows it on the same line. *)
Theorem failed_write_shares_its_line
    W (wr : Writer W) (w : W) (r : Request) (o : os) (e : error) :
  snd (snd (Write w greeting)) = Some e ->
  contents (snd (handler W wr w r o))
  = contents o ++ "error : " ++ Error e ++ "Number of bytes written "
      ++ Fmt.itoa (fst (snd (Write w greeting))) ++ LF.
Proof.
  intro Hfail. rewrite handler_run. unfold contents. cbn [snd stdout].
  rewrite concat_app. unfold report. rewrite Hfail.
  rewrite !concat_cons. unfold error_message, count_line. simpl String.concat.
  rewrite append_empty_r, !append_assoc. reflexivity.
Qed.

Lemma failed_write_shares_its_line_witness :
  snd (snd (Write (broken 0 "write: broken pipe") greeting))
  = Some {| Error := "write: broken pipe" |} /\
  contents (snd (handler conn conn_Writer (broken 0 "write: broken pipe")
                   (GET "/") quiet))
  = "error : write: broken pipeNumber of bytes written 0" ++ LF.
Proof.
  split; [reflexivity|].
  exact (failed_write_shares_its_line conn conn_Writer
           (broken 0 "write: broken pipe") (GET "/") quiet
           {| Error := "write: broken pipe" |} eq_refl).
Defined.

(** X12. One exchange in the server, for a request routed to the root
    pattern: the handler's write is reported complete and the line for 20
    bytes is printed whatever the state of the connection; the bytes of the
    literal are then passed down to the connection, which takes what it
    still carries, except in answer to a HEAD request, where nothing is
    sent. *)
Theorem exchange_on_root_pattern (p : process) (r : Request) (c : conn) :
  DefaultServeMux p = registered ->
  handled (serve None p "/" r c) = (handled p ++ [r])%list /\
  emitted (out p) (out (serve None p "/" r c))
  = ["Number of bytes written 20" ++ LF] /\
  responses (serve None p "/" r c)
  = (responses p
     ++ [if String.eqb (Method r) "HEAD" then c
         else fst (Write c "Hello, world whatsup")])%list.
Proof.
  intro Hm. rewrite (serve_registered p "/" r c Hm). simpl.
  rewrite emitted_app. repeat split.
  unfold finishRequest, chunk_Write. simpl.
  destruct (String.eqb (Method r) "HEAD"); [reflexivity|].
  unfold Write, conn_Writer. fold greeting.
  destruct (conn_Write c greeting); reflexivity.
Qed.

Lemma exchange_on_root_pattern_witness :
  DefaultServeMux (main (port_free [])) = registered /\
  handled (serve None (main (port_free [])) "/" (GET "/") (broken 3 "EOF"))
  = [GET "/"] /\
  emitted (out (main (port_free [])))
          (out (serve None (main (port_free [])) "/" (GET "/") (broken 3 "EOF")))
  = ["Number of bytes written 20" ++ LF] /\
  responses (serve None (main (port_free [])) "/" (GET "/") (broken 3 "EOF"))
  = [{| body := "Hel"; fault := Some (0%nat, {| Error := "EOF" |}) |}].
Proof.
  split; [reflexivity|].
  exact (exchange_on_root_pattern (main (port_free [])) (GET "/")
           (broken 3 "EOF") eq_refl).
Defined.
